(** * Yale Smart Alarm: the alarm control panel entity

    A shallow embedding of
    [homeassistant/components/yale_smart_alarm/alarm_control_panel.py]
    and the properties of its three commands (disarm, arm home, arm away),
    of its code validation and of its derived properties
    ([code_format], [available], [state]).

    Conventions of the embedding:
    - a Python [str] is a Rocq [string] whose characters are read as the
      code points 0..255;
    - a Python [dict] with string keys is a [gmap string _];
    - a coroutine is a function of the monad [M], which threads the mutable
      part of the system (the coordinator's [data] mapping and the log of
      calls that leave the entity) and a raised exception;
    - the vendor client is an oracle: what a call returns or raises is a
      function of the log so far and of the call. *)

From Stdlib Require Import ZArith String Ascii List Bool Lia.
From stdpp Require Import base option list gmap strings.

Local Open Scope string_scope.

(** ** Python values *)

(** The values that flow through this file: what a vendor call returns, what
    the coordinator keeps under a key, what the state table maps to. *)
Inductive PyVal : Type :=
| PyNone
| PyBool (b : bool)
| PyInt (z : Z)
| PyStr (s : string).

#[global] Instance PyVal_eq_dec : EqDecision PyVal.
Proof. solve_decision. Defined.

(** Truth value testing, as [if alarm_state:] performs it. *)
Definition truthy (v : PyVal) : bool :=
  match v with
  | PyNone => false
  | PyBool b => b
  | PyInt z => negb (z =? 0)%Z
  | PyStr s => negb (String.eqb s "")
  end.

(** [x is None] *)
Definition is_None (v : PyVal) : bool :=
  match v with
  | PyNone => true
  | _ => false
  end.

(** [d.get(key)] on a dictionary whose keys are strings: a key that is not a
    string is hashable and equal to no string, so it is absent. *)
Definition dict_get (d : gmap string PyVal) (key : PyVal) : PyVal :=
  match key with
  | PyStr k => default PyNone (d !! k)
  | _ => PyNone
  end.

(** [str.isdigit] on one character of the range 0..255: the decimal digits
    and the three superscript digits U+00B2, U+00B3 and U+00B9. *)
Definition char_isdigit (c : ascii) : bool :=
  let n := nat_of_ascii c in
  (((48 <=? n) && (n <=? 57)) || (n =? 178) || (n =? 179) || (n =? 185))%nat.

Fixpoint all_chars (p : ascii -> bool) (s : string) : bool :=
  match s with
  | EmptyString => true
  | String c rest => p c && all_chars p rest
  end.

(** [str.isdigit]: false on the empty string, otherwise whether every
    character is a digit. *)
Definition str_isdigit (s : string) : bool :=
  match s with
  | EmptyString => false
  | String _ _ => all_chars char_isdigit s
  end.

(** ** Exceptions *)

(** An exception raised inside the vendor client: its class and [str(error)]. *)
Record VendorException : Type := mkVendorException {
  exc_class : string;
  exc_text : string
}.

(** [HomeAssistantError], built either from a message or from the keyword
    arguments of a translated error; [ha_cause] is the [from error] part. *)
Record HomeAssistantError : Type := mkHomeAssistantError {
  ha_message : option string;
  translation_domain : option string;
  translation_key : option string;
  translation_placeholders : option (gmap string string);
  ha_cause : option VendorException
}.

Inductive Exception : Type :=
| RaiseHomeAssistantError (e : HomeAssistantError)
| KeyError (key : string)
| UnboundLocalError (name : string)
| VendorRaised (e : VendorException).

(** ** The mutable world and the monad of commands *)

Inductive VendorOp : Type := arm_full | arm_partial | disarm.

#[global] Instance VendorOp_eq_dec : EqDecision VendorOp.
Proof. solve_decision. Defined.

(** What leaves the entity: a blocking call of the vendor client run through
    [hass.async_add_executor_job], and [async_write_ha_state], recorded with
    the coordinator data the platform finds when it publishes. *)
Inductive Event : Type :=
| VendorCall (op : VendorOp)
| WriteHaState (seen : gmap string PyVal).

Record World : Type := mkWorld {
  data : gmap string PyVal;     (* coordinator.data *)
  log : list Event              (* oldest first *)
}.

Inductive Result (A : Type) : Type :=
| Ok (a : A)
| Raise (e : Exception).
Arguments Ok {A} a.
Arguments Raise {A} e.

Definition M (A : Type) : Type := World -> Result A * World.

#[global] Instance M_ret : MRet M := fun A a w => (Ok a, w).

#[global] Instance M_bind : MBind M := fun A B f m w =>
  match m w with
  | (Ok a, w') => f a w'
  | (Raise e, w') => (Raise e, w')
  end.

Definition raise {A : Type} (e : Exception) : M A := fun w => (Raise e, w).

(** [try: body / except <classes> as error: handler]: [handler] answers
    [None] for an exception the clause does not name, which then goes on. *)
Definition try_except {A : Type} (body : M A)
    (handler : Exception -> option (M A)) : M A := fun w =>
  match body w with
  | (Ok a, w') => (Ok a, w')
  | (Raise e, w') =>
      match handler e with
      | Some h => h w'
      | None => (Raise e, w')
      end
  end.

(** [d[key]] *)
Definition getitem {V : Type} (d : gmap string V) (key : string) : Result V :=
  match d !! key with
  | Some v => Ok v
  | None => Raise (KeyError key)
  end.

Definition lift {A : Type} (r : Result A) : M A := fun w => (r, w).

(** Reading a local variable that may not have been assigned. *)
Definition read_local {A : Type} (name : string) (x : option A) : M A :=
  match x with
  | Some v => mret v
  | None => raise (UnboundLocalError name)
  end.

(** ** Collaborators *)

Inductive Outcome : Type :=
| Returns (v : PyVal)
| Raises (e : VendorException).

Record ConfigEntry : Type := mkConfigEntry {
  entry_id : string;
  entry_data : gmap string string
}.

(** The coordinator: its configuration entry and the vendor client. Its
    [data] mapping is mutable and lives in the [World]. *)
Record YaleDataUpdateCoordinator : Type := mkCoordinator {
  entry : ConfigEntry;
  yale : list Event -> VendorOp -> Outcome
}.

(** [await self.hass.async_add_executor_job(self.coordinator.yale.<op>)] *)
Definition async_add_executor_job (c : YaleDataUpdateCoordinator)
    (op : VendorOp) : M PyVal := fun w =>
  let w' := mkWorld (data w) (log w ++ [VendorCall op]) in
  match yale c (log w) op with
  | Returns v => (Ok v, w')
  | Raises e => (Raise (VendorRaised e), w')
  end.

(** [self.coordinator.data[key] = v] *)
Definition coordinator_data_set (key : string) (v : PyVal) : M unit := fun w =>
  (Ok tt, mkWorld (<[key := v]> (data w)) (log w)).

(** [self.async_write_ha_state()] *)
Definition async_write_ha_state : M unit := fun w =>
  (Ok tt, mkWorld (data w) (log w ++ [WriteHaState (data w)])).

(** ** Constants the module imports *)

(** The names imported from [yalesmartalarmclient.const], [homeassistant.const]
    and the integration's [const] module; their values are not fixed here. *)
Class Constants : Type := mkConstants {
  YALE_STATE_ARM_FULL : string;
  YALE_STATE_ARM_PARTIAL : string;
  YALE_STATE_DISARM : string;
  DOMAIN : string;
  STATE_MAP : gmap string PyVal;
  (* [isinstance(error, YALE_ALL_ERRORS)], by the class of [error] *)
  YALE_ALL_ERRORS : string -> bool;
  CONF_NAME : string;
  CONF_CODE : string;
  DEFAULT_CODE : string;
  (* [super().available]: the availability the base entity classes compute *)
  super_available : YaleDataUpdateCoordinator -> World -> bool
}.

(** ** Entity features *)

Module Features.
Section Flags.
(** [AlarmControlPanelEntityFeature] is an [IntFlag]: every member is one
    bit of an integer; [bit] gives the position. *)
Context {Feature : Type} (bit : Feature -> N).

Definition flag (f : Feature) : Z := Z.shiftl 1 (Z.of_N (bit f)).

(** [a | b] *)
Definition flag_or (a b : Z) : Z := Z.lor a b.

(** [f in flags] *)
Definition flag_in (f : Feature) (flags : Z) : bool :=
  (Z.land flags (flag f) =? flag f)%Z.
End Flags.
End Features.

Inductive CodeFormat : Type := NUMBER | TEXT.

(** ** The entity *)

Record YaleAlarmDevice : Type := mkYaleAlarmDevice {
  coordinator : YaleDataUpdateCoordinator;
  _attr_unique_id : string;
  _code : string
}.

Section Entity.
Context `{K : Constants}.

Definition _attr_code_arm_required : bool := false.

Definition _attr_supported_features {Feature : Type} (bit : Feature -> N)
    (ARM_HOME ARM_AWAY : Feature) : Z :=
  Features.flag_or (Features.flag bit ARM_HOME) (Features.flag bit ARM_AWAY).

(** [__init__] *)
Definition init (c : YaleDataUpdateCoordinator) : YaleAlarmDevice :=
  {| coordinator := c;
     _attr_unique_id := entry_id (entry c);
     _code := default DEFAULT_CODE (entry_data (entry c) !! CONF_CODE) |}.

Definition code_format (self : YaleAlarmDevice) : CodeFormat :=
  if str_isdigit (_code self) then NUMBER else TEXT.

Definition invalid_code : Exception :=
  RaiseHomeAssistantError
    {| ha_message := Some "Invalid code";
       translation_domain := None;
       translation_key := None;
       translation_placeholders := None;
       ha_cause := None |}.

(** [code] is [str | None]; [code != self._code] compares a string with
    the stored string, and [None] differs from every string. *)
Definition _async_validate_code (self : YaleAlarmDevice)
    (code : option string) : Result unit :=
  if decide (code = Some (_code self)) then Ok tt else Raise invalid_code.

Definition set_alarm_error (name : string) (error : VendorException)
    : Exception :=
  RaiseHomeAssistantError
    {| ha_message := None;
       translation_domain := Some DOMAIN;
       translation_key := Some "set_alarm";
       translation_placeholders :=
         Some (<["name" := name]> (<["error" := exc_text error]> ∅));
       ha_cause := Some error |}.

Definition could_not_change_alarm : Exception :=
  RaiseHomeAssistantError
    {| ha_message := None;
       translation_domain := Some DOMAIN;
       translation_key := Some "could_not_change_alarm";
       translation_placeholders := None;
       ha_cause := None |}.

(** The [except YALE_ALL_ERRORS as error] clause. *)
Definition except_YALE_ALL_ERRORS (self : YaleAlarmDevice)
    (e : Exception) : option (M (option PyVal)) :=
  match e with
  | VendorRaised error =>
      if YALE_ALL_ERRORS (exc_class error) then
        Some (name ← lift (getitem (entry_data (entry (coordinator self)))
                             CONF_NAME);
              raise (set_alarm_error name error))
      else None
  | _ => None
  end.

(** The [if / elif / elif] chain of the [try] block; [alarm_state] is
    bound by the branch taken and by no other. *)
Definition set_alarm_branches (self : YaleAlarmDevice) (command : string)
    : M (option PyVal) :=
  if String.eqb command YALE_STATE_ARM_FULL then
    v ← async_add_executor_job (coordinator self) arm_full; mret (Some v)
  else if String.eqb command YALE_STATE_ARM_PARTIAL then
    v ← async_add_executor_job (coordinator self) arm_partial; mret (Some v)
  else if String.eqb command YALE_STATE_DISARM then
    v ← async_add_executor_job (coordinator self) disarm; mret (Some v)
  else mret None.

Definition async_set_alarm (self : YaleAlarmDevice) (command : string)
    : M unit :=
  local ← try_except (set_alarm_branches self command)
                     (except_YALE_ALL_ERRORS self);
  alarm_state ← read_local "alarm_state" local;
  if truthy alarm_state then
    _ ← coordinator_data_set "alarm" (PyStr command);
    async_write_ha_state
  else raise could_not_change_alarm.

Definition async_alarm_disarm (self : YaleAlarmDevice)
    (code : option string) : M unit :=
  _ ← lift (_async_validate_code self code);
  async_set_alarm self YALE_STATE_DISARM.

Definition async_alarm_arm_home (self : YaleAlarmDevice)
    (code : option string) : M unit :=
  async_set_alarm self YALE_STATE_ARM_PARTIAL.

Definition async_alarm_arm_away (self : YaleAlarmDevice)
    (code : option string) : M unit :=
  async_set_alarm self YALE_STATE_ARM_FULL.

(** The [available] property, read in world [w]. *)
Definition available (self : YaleAlarmDevice) (w : World) : Result bool :=
  match getitem (data w) "alarm" with
  | Raise e => Raise e
  | Ok alarm =>
      if is_None (dict_get STATE_MAP alarm) then Ok false
      else Ok (super_available (coordinator self) w)
  end.

(** The [state] property, read in world [w]. *)
Definition state (self : YaleAlarmDevice) (w : World) : Result PyVal :=
  match getitem (data w) "alarm" with
  | Raise e => Raise e
  | Ok alarm => Ok (dict_get STATE_MAP alarm)
  end.
End Entity.

(** ** Sample configuration

    One choice of the imported constants and a small installation, on which
    the statements below are exercised. *)

Definition sample_constants : Constants :=
  {| YALE_STATE_ARM_FULL := "arm";
     YALE_STATE_ARM_PARTIAL := "home";
     YALE_STATE_DISARM := "disarm";
     DOMAIN := "yale_smart_alarm";
     STATE_MAP :=
       <["disarm" := PyStr "disarmed"]>
         (<["home" := PyStr "armed_home"]>
            (<["arm" := PyStr "armed_away"]> ∅));
     YALE_ALL_ERRORS := fun cls =>
       String.eqb cls "ConnectionError" || String.eqb cls "TimeoutError"
       || String.eqb cls "AuthenticationError" || String.eqb cls "UnknownError";
     CONF_NAME := "name";
     CONF_CODE := "code";
     DEFAULT_CODE := "0000";
     super_available := fun _ _ => true |}.

(** A vendor client that accepts every command. *)
Definition obliging_client (_ : list Event) (_ : VendorOp) : Outcome :=
  Returns (PyBool true).

(** A vendor client that answers every command with [False]. *)
Definition refusing_client (_ : list Event) (_ : VendorOp) : Outcome :=
  Returns (PyBool false).

(** A vendor client whose connection is down. *)
Definition offline_client (_ : list Event) (_ : VendorOp) : Outcome :=
  Raises (mkVendorException "ConnectionError" "connection refused").

Definition sample_entry : ConfigEntry :=
  {| entry_id := "entry-1";
     entry_data := <["name" := "Front door"]> (<["code" := "9999"]> ∅) |}.

(** An entry whose options hold no code. *)
Definition codeless_entry : ConfigEntry :=
  {| entry_id := "entry-2";
     entry_data := <["name" := "Garage"]> ∅ |}.

Definition sample_device (client : list Event -> VendorOp -> Outcome)
    : YaleAlarmDevice :=
  @init sample_constants (mkCoordinator sample_entry client).

(** An entry whose stored code is the empty string. *)
Definition blank_code_entry : ConfigEntry :=
  {| entry_id := "entry-3";
     entry_data := <["name" := "Shed"]> (<["code" := ""]> ∅) |}.

Definition codeless_coordinator : YaleDataUpdateCoordinator :=
  mkCoordinator codeless_entry obliging_client.

Definition codeless_device : YaleAlarmDevice :=
  @init sample_constants codeless_coordinator.

Definition blank_device : YaleAlarmDevice :=
  @init sample_constants (mkCoordinator blank_code_entry obliging_client).

Definition sample_world : World :=
  {| data := <["alarm" := PyStr "disarm"]> ∅; log := [] |}.

(** The features of [AlarmControlPanelEntityFeature] this file names, and a
    third one, with bit positions for the examples. *)
Inductive SampleFeature : Type := ARM_HOME | ARM_AWAY | ARM_NIGHT.

Definition sample_bit (f : SampleFeature) : N :=
  match f with
  | ARM_HOME => 0
  | ARM_AWAY => 1
  | ARM_NIGHT => 2
  end%N.

(** A world whose coordinator reports a status the table does not know. *)
Definition odd_world : World :=
  {| data := <["alarm" := PyStr "unknown"]> ∅; log := [] |}.

(** A world whose coordinator data has no alarm entry. *)
Definition bare_world : World :=
  {| data := ∅; log := [] |}.

(** ** Vocabulary of the statements *)

(** A decimal digit or one of the superscript digits: the characters of the
    range 0..255 that count as digits. *)
Definition digit (c : ascii) : Prop :=
  In c (list_ascii_of_string "0123456789")
  \/ In (nat_of_ascii c) [178%nat; 179%nat; 185%nat].

Definition consists_of_digits (s : string) : Prop :=
  Forall digit (list_ascii_of_string s).

(** The world once [op] has been called and nothing else has happened. *)
Definition after_call (op : VendorOp) (w : World) : World :=
  {| data := data w; log := log w ++ [VendorCall op] |}.

(** The world once [op] has been called, the alarm field overwritten with
    [command] and the state published. *)
Definition after_success (command : string) (op : VendorOp) (w : World)
    : World :=
  let updated := <["alarm" := PyStr command]> (data w) in
  {| data := updated;
     log := log w ++ [VendorCall op; WriteHaState updated] |}.

Section Vocabulary.
Context `{K : Constants}.

(** The three vendor keywords are pairwise different. *)
Definition keywords_distinct : Prop :=
  YALE_STATE_ARM_FULL <> YALE_STATE_ARM_PARTIAL
  /\ YALE_STATE_ARM_FULL <> YALE_STATE_DISARM
  /\ YALE_STATE_ARM_PARTIAL <> YALE_STATE_DISARM.

(** The vendor call that belongs to a target keyword. *)
Inductive dispatches : string -> VendorOp -> Prop :=
| dispatches_arm_full : dispatches YALE_STATE_ARM_FULL arm_full
| dispatches_arm_partial : dispatches YALE_STATE_ARM_PARTIAL arm_partial
| dispatches_disarm : dispatches YALE_STATE_DISARM disarm.

(** What a dispatch comes to once it has called [op], by the outcome of
    the call. *)
Definition dispatch_result (self : YaleAlarmDevice) (command : string)
    (op : VendorOp) (w : World) : Result unit * World :=
  match yale (coordinator self) (log w) op with
  | Returns v =>
      if truthy v then (Ok tt, after_success command op w)
      else (Raise could_not_change_alarm, after_call op w)
  | Raises e =>
      if YALE_ALL_ERRORS (exc_class e) then
        match entry_data (entry (coordinator self)) !! CONF_NAME with
        | Some name => (Raise (set_alarm_error name e), after_call op w)
        | None => (Raise (KeyError CONF_NAME), after_call op w)
        end
      else (Raise (VendorRaised e), after_call op w)
  end.

(** The current alarm value has an entry in the table that is not [None]. *)
Definition mapped (alarm : PyVal) : Prop :=
  exists k v, alarm = PyStr k /\ STATE_MAP !! k = Some v /\ v <> PyNone.

(** The commands the platform sends, each with its optional code. *)
Inductive Command : Type :=
| Disarm (code : option string)
| ArmHome (code : option string)
| ArmAway (code : option string).

Definition run_command (self : YaleAlarmDevice) (cmd : Command) : M unit :=
  match cmd with
  | Disarm code => async_alarm_disarm self code
  | ArmHome code => async_alarm_arm_home self code
  | ArmAway code => async_alarm_arm_away self code
  end.

(** The target keyword and the vendor call a command stands for. *)
Definition target (cmd : Command) : string :=
  match cmd with
  | Disarm _ => YALE_STATE_DISARM
  | ArmHome _ => YALE_STATE_ARM_PARTIAL
  | ArmAway _ => YALE_STATE_ARM_FULL
  end.

Definition vendor_op (cmd : Command) : VendorOp :=
  match cmd with
  | Disarm _ => disarm
  | ArmHome _ => arm_partial
  | ArmAway _ => arm_full
  end.

(** A disarm command carries the stored code; arming carries anything. *)
Definition carries_stored_code (self : YaleAlarmDevice) (cmd : Command)
    : Prop :=
  match cmd with
  | Disarm code => code = Some (_code self)
  | _ => True
  end.

(** Disarming without a code is refused. *)
Definition disarm_requires_code (self : YaleAlarmDevice) : Prop :=
  forall w, async_alarm_disarm self None w = (Raise invalid_code, w).

(** The entry holds a code, and it is not the default one. *)
Definition non_default_code_configured (c : YaleDataUpdateCoordinator)
    : Prop :=
  exists code,
    entry_data (entry c) !! CONF_CODE = Some code /\ code <> DEFAULT_CODE.

(** "NUMBER if the stored code consists entirely of digits, TEXT
    otherwise", read to the letter. *)
Definition code_format_by_digits (self : YaleAlarmDevice) : Prop :=
  (consists_of_digits (_code self) -> code_format self = NUMBER)
  /\ (~ consists_of_digits (_code self) -> code_format self = TEXT).

(** "A code is required to disarm if and only if a non-default code is
    configured", for the entity built on coordinator [c]. *)
Definition code_required_iff_configured (c : YaleDataUpdateCoordinator)
    : Prop :=
  disarm_requires_code (init c) <-> non_default_code_configured c.
End Vocabulary.

(** ** Platform setup and the kinds of failure *)

Section Setup.
Context `{K : Constants}.

(** [async_setup_entry]: [runtime_data] is [entry.runtime_data], the
    coordinator of the configuration entry; the platform's
    [async_add_entities] callback receives the list of new entities. *)
Definition async_setup_entry {A : Type}
    (runtime_data : YaleDataUpdateCoordinator)
    (async_add_entities : list YaleAlarmDevice -> A) : A :=
  async_add_entities [init runtime_data].

(** The exceptions a command of entity [self] can end in, each with the
    condition under which the code raises it. *)
Inductive command_error (self : YaleAlarmDevice) : Exception -> Prop :=
| error_invalid_code :
    command_error self invalid_code
| error_set_alarm (name : string) (error : VendorException) :
    YALE_ALL_ERRORS (exc_class error) = true ->
    entry_data (entry (coordinator self)) !! CONF_NAME = Some name ->
    command_error self (set_alarm_error name error)
| error_missing_name (error : VendorException) :
    YALE_ALL_ERRORS (exc_class error) = true ->
    entry_data (entry (coordinator self)) !! CONF_NAME = None ->
    command_error self (KeyError CONF_NAME)
| error_could_not_change :
    command_error self could_not_change_alarm
| error_vendor (error : VendorException) :
    YALE_ALL_ERRORS (exc_class error) = false ->
    command_error self (VendorRaised error).
End Setup.

(** The vendor operations of a log, in the order they were called. *)
Definition vendor_calls (l : list Event) : list VendorOp :=
  omap (fun event =>
          match event with
          | VendorCall op => Some op
          | WriteHaState _ => None
          end) l.

(** A vendor client that fails with an error outside the known classes. *)
Definition crashing_client (_ : list Event) (_ : VendorOp) : Outcome :=
  Raises (mkVendorException "ValueError" "unexpected payload").

(** A vendor client that accepts the first command and refuses the rest. *)
Definition fickle_client (history : list Event) (_ : VendorOp) : Outcome :=
  match history with
  | [] => Returns (PyBool true)
  | _ => Returns (PyBool false)
  end.

(** An entry without a device name. *)
Definition nameless_entry : ConfigEntry :=
  {| entry_id := "entry-4";
     entry_data := <["code" := "9999"]> ∅ |}.

Definition nameless_device : YaleAlarmDevice :=
  @init sample_constants (mkCoordinator nameless_entry offline_client).

(** A world with other coordinator data and no alarm entry yet. *)
Definition fresh_world : World :=
  {| data := <["online" := PyBool true]> ∅; log := [] |}.

(** ** Properties *)

Section Dispatcher.
Context `{K : Constants}.
Implicit Types (self : YaleAlarmDevice) (w : World) (op : VendorOp).

Lemma eqb_ne (a b : string) : a <> b -> String.eqb a b = false.
Proof. intros H. by apply String.eqb_neq. Qed.

(** Under distinct keywords the chain of the [try] block makes the call
    that belongs to the keyword and binds its value. *)
Lemma set_alarm_branches_dispatch self command op w :
  keywords_distinct -> dispatches command op ->
  set_alarm_branches self command w =
    match yale (coordinator self) (log w) op with
    | Returns v => (Ok (Some v), after_call op w)
    | Raises e => (Raise (VendorRaised e), after_call op w)
    end.
Proof.
  intros (Hfp & Hfd & Hpd) Hd. unfold set_alarm_branches.
  destruct Hd.
  - rewrite String.eqb_refl.
    unfold mbind, M_bind, async_add_executor_job, after_call.
    by destruct (yale _ _ _).
  - rewrite (eqb_ne YALE_STATE_ARM_PARTIAL YALE_STATE_ARM_FULL) by congruence.
    rewrite String.eqb_refl.
    unfold mbind, M_bind, async_add_executor_job, after_call.
    by destruct (yale _ _ _).
  - rewrite (eqb_ne YALE_STATE_DISARM YALE_STATE_ARM_FULL) by congruence.
    rewrite (eqb_ne YALE_STATE_DISARM YALE_STATE_ARM_PARTIAL) by congruence.
    rewrite String.eqb_refl.
    unfold mbind, M_bind, async_add_executor_job, after_call.
    by destruct (yale _ _ _).
Qed.

(** A keyword outside the three makes no call and binds nothing. *)
Lemma set_alarm_branches_other self command w :
  command <> YALE_STATE_ARM_FULL -> command <> YALE_STATE_ARM_PARTIAL ->
  command <> YALE_STATE_DISARM ->
  set_alarm_branches self command w = (Ok None, w).
Proof.
  intros H1 H2 H3. unfold set_alarm_branches.
  by rewrite !eqb_ne.
Qed.

(** Whatever the keyword, the chain either binds [alarm_state] or makes no
    call at all; it binds it for each of the three keywords. *)
Lemma set_alarm_branches_cases self command w :
  (exists op,
      (command = YALE_STATE_ARM_FULL \/ command = YALE_STATE_ARM_PARTIAL
       \/ command = YALE_STATE_DISARM)
      /\ set_alarm_branches self command w =
        match yale (coordinator self) (log w) op with
        | Returns v => (Ok (Some v), after_call op w)
        | Raises e => (Raise (VendorRaised e), after_call op w)
        end)
  \/ (command <> YALE_STATE_ARM_FULL /\ command <> YALE_STATE_ARM_PARTIAL
      /\ command <> YALE_STATE_DISARM
      /\ set_alarm_branches self command w = (Ok None, w)).
Proof.
  unfold set_alarm_branches.
  destruct (String.eqb_spec command YALE_STATE_ARM_FULL) as [|H1];
    [left; exists arm_full; split; [by left|]|].
  { unfold mbind, M_bind, async_add_executor_job, after_call.
    by destruct (yale _ _ _). }
  destruct (String.eqb_spec command YALE_STATE_ARM_PARTIAL) as [|H2];
    [left; exists arm_partial; split; [by right; left|]|].
  { unfold mbind, M_bind, async_add_executor_job, after_call.
    by destruct (yale _ _ _). }
  destruct (String.eqb_spec command YALE_STATE_DISARM) as [|H3];
    [left; exists disarm; split; [by right; right|]|].
  { unfold mbind, M_bind, async_add_executor_job, after_call.
    by destruct (yale _ _ _). }
  by right.
Qed.

(** Once the chain has called [op], the dispatcher is [dispatch_result]. *)
Lemma async_set_alarm_after_call self command op w :
  set_alarm_branches self command w =
    match yale (coordinator self) (log w) op with
    | Returns v => (Ok (Some v), after_call op w)
    | Raises e => (Raise (VendorRaised e), after_call op w)
    end ->
  async_set_alarm self command w = dispatch_result self command op w.
Proof.
  intros Hb.
  unfold async_set_alarm, dispatch_result, mbind, M_bind, try_except.
  rewrite Hb.
  destruct (yale _ _ _) as [v|e]; cbn.
  - destruct (truthy v); [|done].
    unfold after_success, after_call, async_write_ha_state; cbn.
    by rewrite <- app_assoc.
  - destruct (YALE_ALL_ERRORS (exc_class e)); [|done].
    unfold lift, getitem.
    by destruct (entry_data _ !! CONF_NAME).
Qed.

(** The whole dispatcher on one of the three keywords. *)
Lemma async_set_alarm_run self command op w :
  keywords_distinct -> dispatches command op ->
  async_set_alarm self command w = dispatch_result self command op w.
Proof.
  intros Hk Hd. apply async_set_alarm_after_call.
  by apply set_alarm_branches_dispatch.
Qed.

(** The whole dispatcher on any keyword: it calls the vendor and goes on
    as [dispatch_result] says, or the keyword is none of the three, no call
    is made and reading [alarm_state] fails. *)
Lemma async_set_alarm_cases self command w :
  (exists op,
      (command = YALE_STATE_ARM_FULL \/ command = YALE_STATE_ARM_PARTIAL
       \/ command = YALE_STATE_DISARM)
      /\ async_set_alarm self command w = dispatch_result self command op w)
  \/ (command <> YALE_STATE_ARM_FULL /\ command <> YALE_STATE_ARM_PARTIAL
      /\ command <> YALE_STATE_DISARM
      /\ async_set_alarm self command w =
           (Raise (UnboundLocalError "alarm_state"), w)).
Proof.
  destruct (set_alarm_branches_cases self command w)
    as [(op & Hc & Hb)|(H1 & H2 & H3 & Hb)].
  - left. exists op. split; [done|]. by apply async_set_alarm_after_call.
  - right. repeat (split; [done|]).
    unfold async_set_alarm, mbind, M_bind, try_except. by rewrite Hb.
Qed.

(** [dispatch_result] never is an unbound local variable. *)
Lemma dispatch_result_bound self command op w name w' :
  dispatch_result self command op w <> (Raise (UnboundLocalError name), w').
Proof.
  unfold dispatch_result.
  destruct (yale _ _ _) as [v|e].
  - by destruct (truthy v).
  - destruct (YALE_ALL_ERRORS _); [|done].
    by destruct (entry_data _ !! CONF_NAME).
Qed.
End Dispatcher.

Section Commands.
Context `{K : Constants}.
Implicit Types (self : YaleAlarmDevice) (w : World) (op : VendorOp).

Lemma validate_stored_code self :
  _async_validate_code self (Some (_code self)) = Ok tt.
Proof. unfold _async_validate_code. by rewrite decide_True. Qed.

Lemma validate_other_code self code :
  code <> Some (_code self) ->
  _async_validate_code self code = Raise invalid_code.
Proof. intros H. unfold _async_validate_code. by rewrite decide_False. Qed.

Lemma disarm_stored_code self w :
  async_alarm_disarm self (Some (_code self)) w =
    async_set_alarm self YALE_STATE_DISARM w.
Proof.
  unfold async_alarm_disarm, mbind, M_bind, lift.
  by rewrite validate_stored_code.
Qed.

Lemma disarm_other_code self code w :
  code <> Some (_code self) ->
  async_alarm_disarm self code w = (Raise invalid_code, w).
Proof.
  intros H. unfold async_alarm_disarm, mbind, M_bind, lift.
  by rewrite validate_other_code.
Qed.

Lemma command_dispatches (cmd : Command) :
  dispatches (target cmd) (vendor_op cmd).
Proof. destruct cmd; constructor. Qed.

(** A command that passes validation is the dispatcher on its keyword. *)
Lemma run_command_dispatch self cmd w :
  carries_stored_code self cmd ->
  run_command self cmd w = async_set_alarm self (target cmd) w.
Proof.
  destruct cmd as [code|code|code]; cbn; intros H; [|done..].
  subst code. apply disarm_stored_code.
Qed.

Lemma state_after_success self command op w :
  state self (after_success command op w) =
    Ok (default PyNone (STATE_MAP !! command)).
Proof.
  unfold state, getitem, after_success; cbn.
  by rewrite lookup_insert_eq.
Qed.

(** C1: whenever the supplied code is not exactly the stored code (a missing
    code included), [disarm] raises the error "Invalid code" and leaves the
    world as it found it: no vendor call enters the log and the
    coordinator's data, its alarm field included, is what it was. *)
Theorem disarm_rejects_any_other_code self (code : option string) w :
  code <> Some (_code self) ->
  exists e,
    async_alarm_disarm self code w = (Raise (RaiseHomeAssistantError e), w)
    /\ ha_message e = Some "Invalid code".
Proof.
  intros H. eexists. split; [by apply disarm_other_code|done].
Qed.

(** C2: for each of the three commands, when the vendor call that belongs
    to it returns a truthy value, the command returns normally in the world
    where that one call was made, the alarm field holds the target keyword
    and the state was published after the overwrite; the [state] property
    read there is the table's value for the keyword. The disarm command is
    the one carrying the stored code. *)
Theorem command_success_updates_state self (cmd : Command) (v : PyVal) w :
  keywords_distinct ->
  carries_stored_code self cmd ->
  yale (coordinator self) (log w) (vendor_op cmd) = Returns v ->
  truthy v = true ->
  let w' := after_success (target cmd) (vendor_op cmd) w in
  run_command self cmd w = (Ok tt, w')
  /\ data w' !! "alarm" = Some (PyStr (target cmd))
  /\ log w' =
       (log w ++ [VendorCall (vendor_op cmd); WriteHaState (data w')])%list
  /\ state self w' = Ok (default PyNone (STATE_MAP !! target cmd)).
Proof.
  intros Hk Hc Hy Ht w'. repeat split.
  - rewrite run_command_dispatch by done.
    rewrite (async_set_alarm_run self _ _ w Hk (command_dispatches cmd)).
    unfold dispatch_result. by rewrite Hy, Ht.
  - subst w'. unfold after_success; cbn. by rewrite lookup_insert_eq.
  - apply state_after_success.
Qed.

(** C3: when the vendor call of a dispatch raises an error of one of the
    known vendor classes, the dispatcher raises the translated error
    [set_alarm], whose placeholders carry the configured device name and
    the text of the original error; the coordinator's data is unchanged. *)
Theorem vendor_error_is_translated self (command : string) op
    (error : VendorException) (name : string) w :
  keywords_distinct ->
  dispatches command op ->
  yale (coordinator self) (log w) op = Raises error ->
  YALE_ALL_ERRORS (exc_class error) = true ->
  entry_data (entry (coordinator self)) !! CONF_NAME = Some name ->
  exists e w' placeholders,
    async_set_alarm self command w = (Raise (RaiseHomeAssistantError e), w')
    /\ translation_key e = Some "set_alarm"
    /\ translation_placeholders e = Some placeholders
    /\ placeholders !! "name" = Some name
    /\ placeholders !! "error" = Some (exc_text error)
    /\ data w' = data w.
Proof.
  intros Hk Hd Hy He Hn.
  rewrite (async_set_alarm_run self command op w Hk Hd).
  unfold dispatch_result. rewrite Hy, He, Hn.
  eexists _, _, _. split; [reflexivity|].
  cbn. split; [done|]. split; [done|]. split; [|split; [|done]].
  - by rewrite lookup_insert_eq.
  - rewrite lookup_insert_ne by done. by rewrite lookup_insert_eq.
Qed.

(** C4: when the vendor call of a dispatch returns a falsy value, the
    dispatcher raises the error [could_not_change_alarm], which carries no
    detail, and the coordinator's data is unchanged. *)
Theorem falsy_result_is_an_error self (command : string) op (v : PyVal) w :
  keywords_distinct ->
  dispatches command op ->
  yale (coordinator self) (log w) op = Returns v ->
  truthy v = false ->
  exists e w',
    async_set_alarm self command w = (Raise (RaiseHomeAssistantError e), w')
    /\ translation_key e = Some "could_not_change_alarm"
    /\ translation_placeholders e = None
    /\ ha_message e = None
    /\ data w' = data w.
Proof.
  intros Hk Hd Hy Ht.
  rewrite (async_set_alarm_run self command op w Hk Hd).
  unfold dispatch_result. rewrite Hy, Ht.
  by eexists _, _.
Qed.

(** The first thing a dispatch on one of the three keywords does is the
    vendor call, and it never ends in "Invalid code". *)
Lemma async_set_alarm_calls_vendor self command op w :
  keywords_distinct -> dispatches command op ->
  exists r w' rest,
    async_set_alarm self command w = (r, w')
    /\ r <> Raise invalid_code
    /\ log w' = (log w ++ VendorCall op :: rest)%list.
Proof.
  intros Hk Hd.
  rewrite (async_set_alarm_run self command op w Hk Hd).
  unfold dispatch_result.
  destruct (yale _ _ _) as [v|e].
  - destruct (truthy v).
    + eexists _, _, _. split; [reflexivity|]. split; [done|].
      reflexivity.
    + eexists _, _, []. split; [reflexivity|]. by split.
  - destruct (YALE_ALL_ERRORS _).
    + destruct (entry_data _ !! CONF_NAME);
        (eexists _, _, []; split; [reflexivity|]; by split).
    + eexists _, _, []. split; [reflexivity|]. by split.
Qed.

(** C5: [arm_home] and [arm_away] do the same whatever the code argument
    is (none, a wrong one, the stored one): they never end in "Invalid
    code", and they start with the vendor call [arm_partial], respectively
    [arm_full]. *)
Theorem arming_ignores_the_code self (code : option string) w :
  keywords_distinct ->
  (async_alarm_arm_home self code w = async_alarm_arm_home self None w
   /\ exists r w' rest,
        async_alarm_arm_home self code w = (r, w')
        /\ r <> Raise invalid_code
        /\ log w' = (log w ++ VendorCall arm_partial :: rest)%list)
  /\ (async_alarm_arm_away self code w = async_alarm_arm_away self None w
      /\ exists r w' rest,
           async_alarm_arm_away self code w = (r, w')
           /\ r <> Raise invalid_code
           /\ log w' = (log w ++ VendorCall arm_full :: rest)%list).
Proof.
  intros Hk. split; (split; [reflexivity|]).
  - apply async_set_alarm_calls_vendor; [done|constructor].
  - apply async_set_alarm_calls_vendor; [done|constructor].
Qed.
End Commands.

Section Unbound.
Context `{K : Constants}.
Implicit Types (self : YaleAlarmDevice) (w : World).

(** C9: the dispatcher ends in an unbound [alarm_state] exactly when the
    command is none of the three keywords, and then no call was made and
    nothing changed; on the three keywords the variable is bound whenever
    it is read. The three public operations only pass these keywords, so
    none of them ever ends in an unbound local variable. *)
Theorem alarm_state_bound_on_the_three_keywords self (command : string) w :
  ((exists w',
       async_set_alarm self command w =
         (Raise (UnboundLocalError "alarm_state"), w'))
   <-> (command <> YALE_STATE_ARM_FULL
        /\ command <> YALE_STATE_ARM_PARTIAL
        /\ command <> YALE_STATE_DISARM))
  /\ (forall name w',
        async_set_alarm self command w = (Raise (UnboundLocalError name), w')
        -> name = "alarm_state" /\ w' = w)
  /\ (forall (cmd : Command) name w',
        run_command self cmd w <> (Raise (UnboundLocalError name), w')).
Proof.
  split; [split|split].
  - intros [w' Hrun].
    destruct (async_set_alarm_cases self command w)
      as [(op & _ & Hc)|(H1 & H2 & H3 & _)]; [|done].
    rewrite Hc in Hrun. by apply dispatch_result_bound in Hrun.
  - intros (H1 & H2 & H3). exists w.
    destruct (async_set_alarm_cases self command w)
      as [(op & [?|[?|?]] & _)|(_ & _ & _ & Hc)]; done.
  - intros name w' Hrun.
    destruct (async_set_alarm_cases self command w)
      as [(op & _ & Hc)|(_ & _ & _ & Hc)]; rewrite Hc in Hrun.
    + by apply dispatch_result_bound in Hrun.
    + by inversion Hrun.
  - intros cmd name w' Hrun.
    assert (forall command,
               command = YALE_STATE_ARM_FULL
               \/ command = YALE_STATE_ARM_PARTIAL
               \/ command = YALE_STATE_DISARM ->
               async_set_alarm self command w
               <> (Raise (UnboundLocalError name), w')) as Hthree.
    { intros c Hin Hc.
      destruct (async_set_alarm_cases self c w)
        as [(op & _ & Hd)|(H1 & H2 & H3 & _)].
      - rewrite Hd in Hc. by apply dispatch_result_bound in Hc.
      - by destruct Hin as [?|[?|?]]. }
    destruct cmd as [code|code|code]; cbn in Hrun.
    + unfold async_alarm_disarm, mbind, M_bind, lift in Hrun.
      destruct (_async_validate_code self code) as [[]|e] eqn:Hv.
      * apply (Hthree YALE_STATE_DISARM); [by right; right|done].
      * unfold _async_validate_code in Hv. by case_decide; simplify_eq.
    + apply (Hthree YALE_STATE_ARM_PARTIAL); [by right; left|done].
    + apply (Hthree YALE_STATE_ARM_FULL); [by left|done].
Qed.
End Unbound.

Section Derived.
Context `{K : Constants}.
Implicit Types (self : YaleAlarmDevice) (w : World).

Lemma is_None_dict_get (alarm : PyVal) :
  is_None (dict_get STATE_MAP alarm) = false <-> mapped alarm.
Proof.
  unfold mapped. split.
  - destruct alarm as [| | |k]; cbn; try done.
    destruct (STATE_MAP !! k) as [v|] eqn:Hk; cbn; [|done].
    intros Hv. exists k, v. repeat split; [done|]. by intros ->.
  - intros (k & v & -> & Hk & Hv). cbn. rewrite Hk. cbn.
    by destruct v.
Qed.

Lemma available_present self w (alarm : PyVal) :
  data w !! "alarm" = Some alarm ->
  available self w =
    Ok (negb (is_None (dict_get STATE_MAP alarm))
        && super_available (coordinator self) w).
Proof.
  intros H. unfold available, getitem. rewrite H.
  by destruct (is_None _).
Qed.

(** C6: with [alarm] the current value of the coordinator's alarm field,
    [available] is true exactly when [alarm] has an entry other than
    [None] in the state table and the platform-level availability holds;
    so it is false for a keyword the table does not have, whatever the
    platform-level availability is. *)
Theorem available_is_mapped_and_platform self w (alarm : PyVal) :
  data w !! "alarm" = Some alarm ->
  (exists b,
      available self w = Ok b
      /\ (b = true <->
          mapped alarm /\ super_available (coordinator self) w = true))
  /\ (forall k,
        alarm = PyStr k -> STATE_MAP !! k = None ->
        available self w = Ok false).
Proof.
  intros H. rewrite (available_present self w alarm H). split.
  - eexists. split; [reflexivity|].
    rewrite andb_true_iff, negb_true_iff. by rewrite is_None_dict_get.
  - intros k -> Hk. cbn. by rewrite Hk.
Qed.

(** C10: both properties index the coordinator's data with the key
    "alarm": when the key is absent they raise [KeyError], they do not
    answer unavailable or [None]; when the key is present with a value the
    table does not map, they answer unavailable and [None]. *)
Theorem missing_alarm_key_raises self w :
  (data w !! "alarm" = None ->
   available self w = Raise (KeyError "alarm")
   /\ state self w = Raise (KeyError "alarm"))
  /\ (forall alarm,
        data w !! "alarm" = Some alarm ->
        dict_get STATE_MAP alarm = PyNone ->
        available self w = Ok false /\ state self w = Ok PyNone).
Proof.
  split.
  - intros H. unfold available, state, getitem. by rewrite H.
  - intros alarm H Hget. unfold available, state, getitem.
    by rewrite H, Hget.
Qed.
End Derived.

Section CodeFormat.
Implicit Types (self : YaleAlarmDevice) (s : string) (c : ascii).

Lemma char_isdigit_digit c : char_isdigit c = true <-> digit c.
Proof.
  unfold digit.
  destruct c as [b0 b1 b2 b3 b4 b5 b6 b7].
  destruct b0, b1, b2, b3, b4, b5, b6, b7; vm_compute;
    (split; [ intros H; first [discriminate H | tauto]
            | intros H; first [reflexivity | exfalso; intuition congruence] ]).
Qed.

Lemma all_chars_digits s :
  all_chars char_isdigit s = true <-> consists_of_digits s.
Proof.
  unfold consists_of_digits.
  induction s as [|c rest IH]; cbn.
  - split; [constructor|done].
  - rewrite andb_true_iff, IH, char_isdigit_digit. split.
    + intros [Hc Hrest]. by constructor.
    + intros H. by inversion H.
Qed.

Lemma str_isdigit_spec s :
  str_isdigit s = true <-> s <> "" /\ consists_of_digits s.
Proof.
  destruct s as [|c rest].
  - cbn. split; [done|]. by intros [H _].
  - unfold str_isdigit. rewrite all_chars_digits. split; [|by intros [_ H]].
    intros H. by split.
Qed.

(** C7 (amended): [code_format] has no world to read or change and depends
    on the stored code only; it is NUMBER exactly when the stored code is
    not empty and consists entirely of digits, and TEXT in every other
    case, the empty code included. *)
Theorem code_format_number_iff_nonempty_digits self :
  (code_format self = NUMBER <->
     _code self <> "" /\ consists_of_digits (_code self))
  /\ (code_format self = TEXT <->
        ~ (_code self <> "" /\ consists_of_digits (_code self)))
  /\ (forall other,
        _code other = _code self -> code_format other = code_format self).
Proof.
  unfold code_format. split; [|split].
  - rewrite <- str_isdigit_spec.
    by destruct (str_isdigit (_code self)).
  - rewrite <- str_isdigit_spec.
    by destruct (str_isdigit (_code self)); split; try done; intros [].
  - by intros other ->.
Qed.
End CodeFormat.

Section Capabilities.
Context `{K : Constants}.
Context {Feature : Type} (bit : Feature -> N).

Lemma land_flag_testbit (x : Z) (f : Feature) :
  Features.flag_in bit f x = Z.testbit x (Z.of_N (bit f)).
Proof.
  unfold Features.flag_in, Features.flag.
  rewrite Z.shiftl_1_l.
  set (n := Z.of_N (bit f)). assert (0 <= n)%Z as Hn by (subst n; lia).
  destruct (Z.testbit x n) eqn:E.
  - apply Z.eqb_eq. apply Z.bits_inj'. intros m Hm.
    rewrite Z.land_spec, Z.pow2_bits_eqb by done.
    destruct (Z.eqb_spec n m) as [<-|Hne]; [by rewrite E|].
    by rewrite andb_false_r.
  - apply Z.eqb_neq. intros H.
    apply (f_equal (fun z => Z.testbit z n)) in H.
    rewrite Z.land_spec, Z.pow2_bits_true, E in H by done. done.
Qed.

Lemma supported_features_exact (ARM_HOME ARM_AWAY f : Feature) :
  Inj (=) (=) bit ->
  Features.flag_in bit f (_attr_supported_features bit ARM_HOME ARM_AWAY)
    = true
  <-> f = ARM_HOME \/ f = ARM_AWAY.
Proof.
  intros Hinj. rewrite land_flag_testbit.
  unfold _attr_supported_features, Features.flag_or, Features.flag.
  rewrite Z.lor_spec, !Z.shiftl_1_l, !Z.pow2_bits_eqb by lia.
  rewrite orb_true_iff, !Z.eqb_eq. split.
  - intros [H|H]; [left|right]; apply Hinj; lia.
  - by intros [->| ->]; [left|right].
Qed.

(** C8 (amended): the entity supports exactly the arm-home and arm-away
    features and declares that arming needs no code. Disarming needs the
    stored code whatever the configuration is: the stored code is the
    configured one, or the default one when none is configured; a disarm
    without a code is refused with "Invalid code"; and a supplied code
    passes validation exactly when it is the stored code. *)
Theorem capabilities_and_disarm_code (ARM_HOME ARM_AWAY : Feature)
    (c : YaleDataUpdateCoordinator) :
  Inj (=) (=) bit ->
  (forall f,
      Features.flag_in bit f (_attr_supported_features bit ARM_HOME ARM_AWAY)
        = true
      <-> f = ARM_HOME \/ f = ARM_AWAY)
  /\ _attr_code_arm_required = false
  /\ (forall code,
        entry_data (entry c) !! CONF_CODE = Some code ->
        _code (init c) = code)
  /\ (entry_data (entry c) !! CONF_CODE = None ->
      _code (init c) = DEFAULT_CODE)
  /\ disarm_requires_code (init c)
  /\ (forall code,
        _async_validate_code (init c) code = Ok tt
        <-> code = Some (_code (init c))).
Proof.
  intros Hinj.
  split; [by intros f; apply supported_features_exact|].
  split; [done|].
  split; [by intros code H; cbn; rewrite H|].
  split; [by intros H; cbn; rewrite H|].
  split; [by intros w; apply disarm_other_code|].
  intros code. split.
  - unfold _async_validate_code. by case_decide.
  - intros ->. apply validate_stored_code.
Qed.
End Capabilities.

(** ** The statements on the sample configuration *)

Section Samples.
Local Notation K := sample_constants.

Lemma sample_keywords_distinct : @keywords_distinct sample_constants.
Proof. repeat split; intros H; vm_compute in H; discriminate H. Defined.

Lemma sample_bit_inj : Inj (=) (=) sample_bit.
Proof.
  intros f g H.
  destruct f, g; first [reflexivity | vm_compute in H; discriminate H].
Defined.

(** A trailing space or another letter case is another code. *)
Example disarm_is_exact :
  @async_alarm_disarm K (sample_device obliging_client) (Some "9999 ")
    sample_world = (Raise invalid_code, sample_world)
  /\ _async_validate_code (mkYaleAlarmDevice codeless_coordinator "" "abcd")
       (Some "ABCD") = Raise invalid_code
  /\ _async_validate_code (mkYaleAlarmDevice codeless_coordinator "" "abcd")
       (Some "abcd") = Ok tt.
Proof. by vm_compute. Qed.

Lemma disarm_rejects_any_other_code_witness :
  exists e,
    @async_alarm_disarm K (sample_device obliging_client) None sample_world
      = (Raise (RaiseHomeAssistantError e), sample_world)
    /\ ha_message e = Some "Invalid code".
Proof.
  apply (@disarm_rejects_any_other_code K (sample_device obliging_client)
           None sample_world).
  intros H. discriminate H.
Defined.

Lemma command_success_updates_state_witness :
  let self := sample_device obliging_client in
  let w' := @after_success "arm" arm_full sample_world in
  @run_command K self (ArmAway None) sample_world = (Ok tt, w')
  /\ data w' !! "alarm" = Some (PyStr "arm")
  /\ log w' = [VendorCall arm_full; WriteHaState (data w')]
  /\ @state K self w' = Ok (PyStr "armed_away").
Proof.
  apply (@command_success_updates_state K (sample_device obliging_client)
           (ArmAway None) (PyBool true) sample_world).
  - exact sample_keywords_distinct.
  - exact I.
  - reflexivity.
  - reflexivity.
Defined.

(** Arm away, then disarm with the stored code. *)
Example arm_away_then_disarm :
  let self := sample_device obliging_client in
  let (r1, w1) := @async_alarm_arm_away K self None sample_world in
  let (r2, w2) := @async_alarm_disarm K self (Some "9999") w1 in
  r1 = Ok tt /\ @state K self w1 = Ok (PyStr "armed_away")
  /\ r2 = Ok tt /\ @state K self w2 = Ok (PyStr "disarmed").
Proof. by vm_compute. Qed.

Lemma vendor_error_is_translated_witness :
  exists e w' placeholders,
    @async_set_alarm K (sample_device offline_client) "home" sample_world
      = (Raise (RaiseHomeAssistantError e), w')
    /\ translation_key e = Some "set_alarm"
    /\ translation_placeholders e = Some placeholders
    /\ placeholders !! "name" = Some "Front door"
    /\ placeholders !! "error" = Some "connection refused"
    /\ data w' = data sample_world.
Proof.
  apply (@vendor_error_is_translated K (sample_device offline_client)
           "home" arm_partial
           (mkVendorException "ConnectionError" "connection refused")
           "Front door" sample_world).
  - exact sample_keywords_distinct.
  - exact (@dispatches_arm_partial K).
  - reflexivity.
  - reflexivity.
  - reflexivity.
Defined.

Lemma falsy_result_is_an_error_witness :
  exists e w',
    @async_set_alarm K (sample_device refusing_client) "disarm" sample_world
      = (Raise (RaiseHomeAssistantError e), w')
    /\ translation_key e = Some "could_not_change_alarm"
    /\ translation_placeholders e = None
    /\ ha_message e = None
    /\ data w' = data sample_world.
Proof.
  apply (@falsy_result_is_an_error K (sample_device refusing_client)
           "disarm" disarm (PyBool false) sample_world).
  - exact sample_keywords_distinct.
  - exact (@dispatches_disarm K).
  - reflexivity.
  - reflexivity.
Defined.

Lemma arming_ignores_the_code_witness :
  let self := sample_device obliging_client in
  (@async_alarm_arm_home K self (Some "wrong") sample_world
     = @async_alarm_arm_home K self None sample_world
   /\ exists r w' rest,
        @async_alarm_arm_home K self (Some "wrong") sample_world = (r, w')
        /\ r <> Raise invalid_code
        /\ log w' = (log sample_world ++ VendorCall arm_partial :: rest)%list)
  /\ (@async_alarm_arm_away K self (Some "wrong") sample_world
        = @async_alarm_arm_away K self None sample_world
      /\ exists r w' rest,
           @async_alarm_arm_away K self (Some "wrong") sample_world = (r, w')
           /\ r <> Raise invalid_code
           /\ log w' = (log sample_world ++ VendorCall arm_full :: rest)%list).
Proof.
  apply (@arming_ignores_the_code K (sample_device obliging_client)
           (Some "wrong") sample_world).
  exact sample_keywords_distinct.
Defined.

Lemma available_is_mapped_and_platform_witness :
  (exists b,
      @available K (sample_device obliging_client) sample_world = Ok b
      /\ (b = true <->
          @mapped K (PyStr "disarm")
          /\ @super_available K
               (coordinator (sample_device obliging_client)) sample_world
             = true))
  /\ (forall k,
        PyStr "disarm" = PyStr k -> @STATE_MAP K !! k = None ->
        @available K (sample_device obliging_client) sample_world
          = Ok false).
Proof.
  apply (@available_is_mapped_and_platform K (sample_device obliging_client)
           sample_world (PyStr "disarm")).
  reflexivity.
Defined.

(** An unknown status makes the entity unavailable; a missing key is an
    error. *)
Example available_on_the_samples :
  @available K (sample_device obliging_client) sample_world = Ok true
  /\ @available K (sample_device obliging_client) odd_world = Ok false
  /\ @state K (sample_device obliging_client) odd_world = Ok PyNone
  /\ @available K (sample_device obliging_client) bare_world
       = Raise (KeyError "alarm")
  /\ @state K (sample_device obliging_client) bare_world
       = Raise (KeyError "alarm").
Proof. by vm_compute. Qed.

Example code_format_examples :
  code_format (mkYaleAlarmDevice codeless_coordinator "" "1234") = NUMBER
  /\ code_format (mkYaleAlarmDevice codeless_coordinator "" "abcd") = TEXT
  /\ code_format (mkYaleAlarmDevice codeless_coordinator "" "12a4") = TEXT
  /\ code_format (sample_device obliging_client) = NUMBER
  /\ code_format blank_device = TEXT.
Proof. by vm_compute. Qed.

(** Read to the letter, the empty code consists entirely of digits, and
    its format is TEXT. *)
Lemma code_format_blank_code :
  _code blank_device = ""
  /\ consists_of_digits (_code blank_device)
  /\ code_format blank_device = TEXT
  /\ ~ code_format_by_digits blank_device.
Proof.
  assert (consists_of_digits (_code blank_device)) as Hd by constructor.
  split; [reflexivity|]. split; [exact Hd|]. split; [reflexivity|].
  intros [Hnumber _]. specialize (Hnumber Hd). discriminate Hnumber.
Qed.

(** With no code configured the default code is in force, and a disarm
    without a code is refused all the same; so it is for every choice of
    the constants. *)
Lemma default_code_still_required :
  (entry_data (entry codeless_coordinator) !! @CONF_CODE K = None
   /\ @disarm_requires_code K (@init K codeless_coordinator)
   /\ ~ @non_default_code_configured K codeless_coordinator)
  /\ ~ @code_required_iff_configured K codeless_coordinator
  /\ ~ (exists K' : Constants,
          forall c, @code_required_iff_configured K' c).
Proof.
  assert (forall K' : Constants,
             ~ @code_required_iff_configured K'
                 (mkCoordinator (mkConfigEntry "" ∅) obliging_client))
    as Hany.
  { intros K' [Hrequired _].
    destruct Hrequired as (code & Hcode & _).
    - intros w. by apply disarm_other_code.
    - cbn in Hcode. by rewrite lookup_empty in Hcode. }
  assert (~ @non_default_code_configured K codeless_coordinator) as Hnone.
  { intros (code & Hcode & _). vm_compute in Hcode. discriminate Hcode. }
  split; [split; [reflexivity|split; [|exact Hnone]]|split].
  - intros w. by apply disarm_other_code.
  - intros [Hrequired _]. apply Hnone, Hrequired.
    intros w. by apply disarm_other_code.
  - intros [K' H]. exact (Hany K' (H _)).
Qed.

Lemma capabilities_and_disarm_code_witness :
  (forall f,
      Features.flag_in sample_bit f
        (_attr_supported_features sample_bit ARM_HOME ARM_AWAY) = true
      <-> f = ARM_HOME \/ f = ARM_AWAY)
  /\ _attr_code_arm_required = false
  /\ (forall code,
        entry_data (entry codeless_coordinator) !! @CONF_CODE K = Some code ->
        _code (@init K codeless_coordinator) = code)
  /\ (entry_data (entry codeless_coordinator) !! @CONF_CODE K = None ->
      _code (@init K codeless_coordinator) = @DEFAULT_CODE K)
  /\ @disarm_requires_code K (@init K codeless_coordinator)
  /\ (forall code,
        _async_validate_code (@init K codeless_coordinator) code = Ok tt
        <-> code = Some (_code (@init K codeless_coordinator))).
Proof.
  apply (@capabilities_and_disarm_code K SampleFeature sample_bit
           ARM_HOME ARM_AWAY codeless_coordinator).
  exact sample_bit_inj.
Defined.

Example night_arming_is_not_supported :
  Features.flag_in sample_bit ARM_NIGHT
    (_attr_supported_features sample_bit ARM_HOME ARM_AWAY) = false
  /\ Features.flag_in sample_bit ARM_HOME
       (_attr_supported_features sample_bit ARM_HOME ARM_AWAY) = true
  /\ Features.flag_in sample_bit ARM_AWAY
       (_attr_supported_features sample_bit ARM_HOME ARM_AWAY) = true.
Proof. by vm_compute. Qed.

(** A keyword outside the three: no call, an unbound variable. *)
Example unknown_keyword_is_unbound :
  @async_set_alarm K (sample_device obliging_client) "night" sample_world
    = (Raise (UnboundLocalError "alarm_state"), sample_world).
Proof. by vm_compute. Qed.
End Samples.


(** ** Further properties of the commands *)

Section Outcomes.
Context `{K : Constants}.
Implicit Types (self : YaleAlarmDevice) (w : World) (op : VendorOp).

(** Once the vendor was called, the dispatcher succeeds in the world
    [after_success], or fails in the world [after_call] with one of the
    errors of [command_error] other than "Invalid code". *)
Lemma dispatch_result_cases self command op w :
  dispatch_result self command op w = (Ok tt, after_success command op w)
  \/ (exists e,
         dispatch_result self command op w = (Raise e, after_call op w)
         /\ command_error self e /\ e <> invalid_code).
Proof.
  unfold dispatch_result.
  destruct (yale _ _ _) as [v|error].
  - destruct (truthy v); [by left|right].
    eexists. split; [reflexivity|]. split; [constructor|done].
  - right. destruct (YALE_ALL_ERRORS (exc_class error)) eqn:Hknown.
    + destruct (entry_data _ !! CONF_NAME) as [name|] eqn:Hname.
      * eexists. split; [reflexivity|].
        split; [by apply error_set_alarm|done].
      * eexists. split; [reflexivity|].
        split; [by apply (error_missing_name self error)|done].
    + eexists. split; [reflexivity|]. split; [by apply error_vendor|done].
Qed.

(** A public command is refused at validation, or reaches the vendor. *)
Lemma run_command_cases self (cmd : Command) w :
  (exists code,
      cmd = Disarm code /\ code <> Some (_code self)
      /\ run_command self cmd w = (Raise invalid_code, w))
  \/ (exists op,
         run_command self cmd w = dispatch_result self (target cmd) op w).
Proof.
  assert (forall command,
             command = YALE_STATE_ARM_FULL
             \/ command = YALE_STATE_ARM_PARTIAL
             \/ command = YALE_STATE_DISARM ->
             exists op,
               async_set_alarm self command w
               = dispatch_result self command op w) as Hthree.
  { intros command Hin.
    destruct (async_set_alarm_cases self command w)
      as [(op & _ & Hd)|(H1 & H2 & H3 & _)]; [by exists op|].
    by destruct Hin as [?|[?|?]]. }
  destruct cmd as [code|code|code]; cbn.
  - destruct (decide (code = Some (_code self))) as [->|Hne].
    + right. rewrite disarm_stored_code. apply Hthree. by right; right.
    + left. exists code. split; [done|]. split; [done|].
      by apply disarm_other_code.
  - right. apply Hthree. by right; left.
  - right. apply Hthree. by left.
Qed.

(** Under distinct keywords the vendor call is the command's own. *)
Lemma run_command_cases_distinct self (cmd : Command) w :
  keywords_distinct ->
  (exists code,
      cmd = Disarm code /\ code <> Some (_code self)
      /\ run_command self cmd w = (Raise invalid_code, w))
  \/ run_command self cmd w
     = dispatch_result self (target cmd) (vendor_op cmd) w.
Proof.
  intros Hk.
  destruct cmd as [code|code|code]; cbn.
  - destruct (decide (code = Some (_code self))) as [->|Hne].
    + right. rewrite disarm_stored_code.
      apply async_set_alarm_run; [done|constructor].
    + left. exists code. split; [done|]. split; [done|].
      by apply disarm_other_code.
  - right. apply async_set_alarm_run; [done|constructor].
  - right. apply async_set_alarm_run; [done|constructor].
Qed.

(** A command that returns normally went through [after_success]. *)
Lemma run_command_ok self (cmd : Command) w w' :
  run_command self cmd w = (Ok tt, w') ->
  exists op, w' = after_success (target cmd) op w.
Proof.
  intros Hrun.
  destruct (run_command_cases self cmd w)
    as [(code & _ & _ & Hc)|(op & Hc)]; rewrite Hc in Hrun; [done|].
  exists op.
  destruct (dispatch_result_cases self (target cmd) op w)
    as [Hd|(e & Hd & _)]; rewrite Hd in Hrun; by inversion Hrun.
Qed.

(** X1: when the vendor call of a dispatch raises an error that is not of
    the known vendor classes, the [except] clause does not apply: the
    dispatcher ends in the vendor's own exception, untranslated, after that
    one call, and the coordinator's data is what it was. *)
Theorem unknown_vendor_error_propagates self (command : string) op
    (error : VendorException) w :
  keywords_distinct ->
  dispatches command op ->
  yale (coordinator self) (log w) op = Raises error ->
  YALE_ALL_ERRORS (exc_class error) = false ->
  exists w',
    async_set_alarm self command w = (Raise (VendorRaised error), w')
    /\ data w' = data w
    /\ log w' = (log w ++ [VendorCall op])%list.
Proof.
  intros Hk Hd Hy He.
  rewrite (async_set_alarm_run self command op w Hk Hd).
  unfold dispatch_result. rewrite Hy, He.
  by eexists.
Qed.

(** X2: when the vendor call raises an error of a known class and the
    configuration entry has no device name, building the translated error
    fails: the dispatcher ends in [KeyError] on the name key, not in the
    translated error; the coordinator's data is what it was. *)
Theorem known_error_without_name_is_a_key_error self (command : string) op
    (error : VendorException) w :
  keywords_distinct ->
  dispatches command op ->
  yale (coordinator self) (log w) op = Raises error ->
  YALE_ALL_ERRORS (exc_class error) = true ->
  entry_data (entry (coordinator self)) !! CONF_NAME = None ->
  exists w',
    async_set_alarm self command w = (Raise (KeyError CONF_NAME), w')
    /\ data w' = data w
    /\ log w' = (log w ++ [VendorCall op])%list.
Proof.
  intros Hk Hd Hy He Hn.
  rewrite (async_set_alarm_run self command op w Hk Hd).
  unfold dispatch_result. rewrite Hy, He, Hn.
  by eexists.
Qed.

(** X3: whatever the command, its code and the vendor's answer, a command
    touches no key of the coordinator's data other than "alarm"; when it
    returns normally the alarm field holds its target keyword; when it
    raises, the data is what it was and the [state] property reads as
    before. *)
Theorem command_data_frame self (cmd : Command) w (r : Result unit) w' :
  run_command self cmd w = (r, w') ->
  (forall key, key <> "alarm" -> data w' !! key = data w !! key)
  /\ (r = Ok tt -> data w' !! "alarm" = Some (PyStr (target cmd)))
  /\ (forall e, r = Raise e -> data w' = data w /\ state self w' = state self w).
Proof.
  intros Hrun.
  destruct (run_command_cases self cmd w)
    as [(code & _ & _ & Hc)|(op & Hc)]; rewrite Hc in Hrun.
  { inversion Hrun; subst. by repeat split. }
  destruct (dispatch_result_cases self (target cmd) op w)
    as [Hd|(e & Hd & _)]; rewrite Hd in Hrun; inversion Hrun; subst.
  - split; [|split].
    + intros key Hkey. cbn. by rewrite lookup_insert_ne.
    + intros _. cbn. by rewrite lookup_insert_eq.
    + by intros e.
  - split; [done|]. split; [done|]. intros e' _. by split.
Qed.

(** X4: under distinct keywords, a command leaves one of three traces: none
    at all (a disarm refused for its code), its own vendor call alone (every
    other failure), or its own vendor call followed by one publication of
    the final data (success). It never calls the vendor twice, never calls
    another command's operation and never publishes on failure. *)
Theorem command_log_discipline self (cmd : Command) w (r : Result unit) w' :
  keywords_distinct ->
  run_command self cmd w = (r, w') ->
  (r = Raise invalid_code /\ log w' = log w)
  \/ (exists e,
         r = Raise e /\ e <> invalid_code
         /\ log w' = (log w ++ [VendorCall (vendor_op cmd)])%list)
  \/ (r = Ok tt
      /\ log w' =
           (log w ++ [VendorCall (vendor_op cmd); WriteHaState (data w')])%list).
Proof.
  intros Hk Hrun.
  destruct (run_command_cases_distinct self cmd w Hk)
    as [(code & _ & _ & Hc)|Hc]; rewrite Hc in Hrun.
  { left. by inversion Hrun. }
  right.
  destruct (dispatch_result_cases self (target cmd) (vendor_op cmd) w)
    as [Hd|(e & Hd & _ & Hne)]; rewrite Hd in Hrun; inversion Hrun; subst.
  - by right.
  - left. by exists e.
Qed.

(** X5: every exception a command ends in is one of five: "Invalid code",
    the translated vendor error, [KeyError] on the name key, "could not
    change alarm", or the vendor's own exception of an unknown class; and
    "Invalid code" only comes from a disarm whose code is not the stored
    one. *)
Theorem command_errors_are_classified self (cmd : Command) w
    (e : Exception) w' :
  run_command self cmd w = (Raise e, w') ->
  command_error self e
  /\ (e = invalid_code ->
      exists code, cmd = Disarm code /\ code <> Some (_code self)).
Proof.
  intros Hrun.
  destruct (run_command_cases self cmd w)
    as [(code & Hcmd & Hne & Hc)|(op & Hc)]; rewrite Hc in Hrun.
  { inversion Hrun; subst. split; [constructor|]. intros _. by exists code. }
  destruct (dispatch_result_cases self (target cmd) op w)
    as [Hd|(e' & Hd & Herr & Hne)]; rewrite Hd in Hrun; [done|].
  inversion Hrun; subst. by split.
Qed.

(** X6: after a command that returned normally, the two properties answer
    without error whatever the data held before (even no alarm entry):
    [state] is the table's value for the target keyword and [available] is
    that value being there together with the platform-level availability; a
    target keyword the table lacks leaves the entity unavailable. *)
Theorem success_defines_the_properties self (cmd : Command) w w' :
  run_command self cmd w = (Ok tt, w') ->
  state self w' = Ok (default PyNone (STATE_MAP !! target cmd))
  /\ available self w' =
       Ok (negb (is_None (default PyNone (STATE_MAP !! target cmd)))
           && super_available (coordinator self) w')
  /\ (STATE_MAP !! target cmd = None -> available self w' = Ok false).
Proof.
  intros Hrun.
  destruct (run_command_ok self cmd w w' Hrun) as [op ->].
  assert (data (after_success (target cmd) op w) !! "alarm"
          = Some (PyStr (target cmd))) as Halarm.
  { cbn. by rewrite lookup_insert_eq. }
  split; [apply state_after_success|].
  rewrite (available_present self _ _ Halarm). split; [done|].
  intros Hnone. cbn. by rewrite Hnone.
Qed.

(** X7: of two commands that both return normally, one after the other, the
    second one wins: the data is the initial data with the alarm field set
    to the second target keyword, [state] is the table's value for it, and
    the log gained, in this order, a vendor call and a publication for
    each. *)
Theorem last_command_wins self (cmd1 cmd2 : Command) w w1 w2 :
  run_command self cmd1 w = (Ok tt, w1) ->
  run_command self cmd2 w1 = (Ok tt, w2) ->
  data w2 = <["alarm" := PyStr (target cmd2)]> (data w)
  /\ state self w2 = Ok (default PyNone (STATE_MAP !! target cmd2))
  /\ exists op1 op2,
       log w2 =
         (log w ++ [VendorCall op1; WriteHaState (data w1);
                    VendorCall op2; WriteHaState (data w2)])%list.
Proof.
  intros H1 H2.
  destruct (run_command_ok self cmd1 w w1 H1) as [op1 ->].
  destruct (run_command_ok self cmd2 _ w2 H2) as [op2 ->].
  split; [|split].
  - cbn. by rewrite insert_insert_eq.
  - apply state_after_success.
  - exists op1, op2. cbn. by rewrite <- app_assoc.
Qed.

(** X8: the two properties agree: they raise the same errors in the same
    worlds; when [available] is true, [state] is a value other than [None];
    and when [state] is [None], [available] is false. *)
Theorem available_and_state_agree self w :
  (forall e, available self w = Raise e <-> state self w = Raise e)
  /\ (available self w = Ok true ->
      exists v, state self w = Ok v /\ v <> PyNone)
  /\ (state self w = Ok PyNone -> available self w = Ok false).
Proof.
  unfold available, state, getitem.
  destruct (data w !! "alarm") as [alarm|].
  - destruct (dict_get STATE_MAP alarm) as [|b|z|s] eqn:Hget; cbn.
    + split; [by intros e; split|]. by split.
    + split; [by intros e; split|]. split; [|done].
      intros _. by exists (PyBool b).
    + split; [by intros e; split|]. split; [|done].
      intros _. by exists (PyInt z).
    + split; [by intros e; split|]. split; [|done].
      intros _. by exists (PyStr s).
  - split; [|by split].
    intros e. split; intros H; by inversion H.
Qed.

(** X9: the platform receives exactly one entity for a configuration
    entry; its unique id is the entry id, and it is built on the entry's
    coordinator, so that disarming it with the code of the entry (the
    default code when the entry has none) passes validation, makes the
    vendor disarm call and, when that call returns a truthy value, ends in
    the DISARM state. *)
Theorem setup_entity_disarms_with_entry_code
    (runtime_data : YaleDataUpdateCoordinator) (v : PyVal) w :
  keywords_distinct ->
  yale runtime_data (log w) disarm = Returns v ->
  truthy v = true ->
  exists self,
    async_setup_entry runtime_data (fun entities => entities) = [self]
    /\ _attr_unique_id self = entry_id (entry runtime_data)
    /\ async_alarm_disarm self
         (Some (default DEFAULT_CODE
                  (entry_data (entry runtime_data) !! CONF_CODE))) w
       = (Ok tt, after_success YALE_STATE_DISARM disarm w)
    /\ state self (after_success YALE_STATE_DISARM disarm w)
       = Ok (default PyNone (STATE_MAP !! YALE_STATE_DISARM)).
Proof.
  intros Hk Hy Ht. exists (init runtime_data).
  split; [done|]. split; [done|]. split; [|apply state_after_success].
  change (default DEFAULT_CODE (entry_data (entry runtime_data) !! CONF_CODE))
    with (_code (init runtime_data)).
  rewrite disarm_stored_code.
  rewrite (async_set_alarm_run _ _ disarm w Hk); [|constructor].
  unfold dispatch_result. cbn. by rewrite Hy, Ht.
Qed.
End Outcomes.

Section DataBlind.
Context `{K : Constants}.
Implicit Types (self : YaleAlarmDevice) (w : World).

(** The vendor operation the chain calls depends on the keyword alone. *)
Lemma async_set_alarm_uniform self (command : string) :
  (exists op, forall w,
      async_set_alarm self command w = dispatch_result self command op w)
  \/ (forall w,
        async_set_alarm self command w
        = (Raise (UnboundLocalError "alarm_state"), w)).
Proof.
  assert (forall op,
             (forall w,
                 set_alarm_branches self command w
                 = (v ← async_add_executor_job (coordinator self) op;
                    mret (Some v)) w) ->
             forall w,
               async_set_alarm self command w
               = dispatch_result self command op w) as Hcall.
  { intros op Hb w. apply async_set_alarm_after_call. rewrite Hb.
    unfold mbind, M_bind, async_add_executor_job, after_call.
    by destruct (yale _ _ _). }
  destruct (String.eqb command YALE_STATE_ARM_FULL) eqn:H1.
  { left. exists arm_full. apply Hcall. intros w.
    unfold set_alarm_branches. by rewrite H1. }
  destruct (String.eqb command YALE_STATE_ARM_PARTIAL) eqn:H2.
  { left. exists arm_partial. apply Hcall. intros w.
    unfold set_alarm_branches. by rewrite H1, H2. }
  destruct (String.eqb command YALE_STATE_DISARM) eqn:H3.
  { left. exists disarm. apply Hcall. intros w.
    unfold set_alarm_branches. by rewrite H1, H2, H3. }
  right. intros w.
  unfold async_set_alarm, try_except, set_alarm_branches, mbind, M_bind.
  by rewrite H1, H2, H3.
Qed.

Lemma dispatch_result_data_blind self (command : string) (op : VendorOp)
    (d1 d2 : gmap string PyVal) (l : list Event) :
  (dispatch_result self command op (mkWorld d1 l)).1
  = (dispatch_result self command op (mkWorld d2 l)).1
  /\ vendor_calls (log (dispatch_result self command op (mkWorld d1 l)).2)
     = vendor_calls (log (dispatch_result self command op (mkWorld d2 l)).2).
Proof.
  unfold dispatch_result. cbn.
  destruct (yale _ _ _) as [v|error].
  - destruct (truthy v); [|done]. split; [done|].
    unfold after_success, vendor_calls. cbn. by rewrite !omap_app.
  - destruct (YALE_ALL_ERRORS (exc_class error)); [|done].
    by destruct (entry_data _ !! CONF_NAME).
Qed.

Lemma async_set_alarm_data_blind self (command : string)
    (d1 d2 : gmap string PyVal) (l : list Event) :
  (async_set_alarm self command (mkWorld d1 l)).1
  = (async_set_alarm self command (mkWorld d2 l)).1
  /\ vendor_calls (log (async_set_alarm self command (mkWorld d1 l)).2)
     = vendor_calls (log (async_set_alarm self command (mkWorld d2 l)).2).
Proof.
  destruct (async_set_alarm_uniform self command) as [[op Hop]|Hunbound].
  - rewrite !Hop. apply dispatch_result_data_blind.
  - by rewrite !Hunbound.
Qed.

(** X10: a command never consults the coordinator's data: in two worlds
    with the same log the same command ends in the same result after the
    same vendor calls, whatever the alarm field (or any other key) holds in
    either; the vendor is called even when the field already holds the
    target keyword. *)
Theorem command_ignores_current_data self (cmd : Command) w1 w2 :
  log w1 = log w2 ->
  (run_command self cmd w1).1 = (run_command self cmd w2).1
  /\ vendor_calls (log (run_command self cmd w1).2)
     = vendor_calls (log (run_command self cmd w2).2).
Proof.
  destruct w1 as [d1 l1], w2 as [d2 l2]. cbn. intros ->.
  destruct cmd as [code|code|code]; cbn;
    [|apply async_set_alarm_data_blind..].
  unfold async_alarm_disarm, mbind, M_bind, lift.
  destruct (_async_validate_code self code) as [[]|e]; [|done].
  apply async_set_alarm_data_blind.
Qed.
End DataBlind.

(** ** The further properties on the sample configuration *)

Section MoreSamples.
Local Abbreviation K := sample_constants.

Lemma unknown_vendor_error_propagates_witness :
  exists w',
    @async_set_alarm K (sample_device crashing_client) "arm" sample_world
    = (Raise (VendorRaised (mkVendorException "ValueError"
                              "unexpected payload")), w')
    /\ data w' = data sample_world
    /\ log w' = (log sample_world ++ [VendorCall arm_full])%list.
Proof.
  apply (@unknown_vendor_error_propagates K (sample_device crashing_client)
           "arm" arm_full
           (mkVendorException "ValueError" "unexpected payload") sample_world).
  - exact sample_keywords_distinct.
  - exact (@dispatches_arm_full K).
  - reflexivity.
  - reflexivity.
Defined.

Lemma known_error_without_name_is_a_key_error_witness :
  exists w',
    @async_set_alarm K nameless_device "disarm" sample_world
    = (Raise (KeyError "name"), w')
    /\ data w' = data sample_world
    /\ log w' = (log sample_world ++ [VendorCall disarm])%list.
Proof.
  apply (@known_error_without_name_is_a_key_error K nameless_device
           "disarm" disarm
           (mkVendorException "ConnectionError" "connection refused")
           sample_world).
  - exact sample_keywords_distinct.
  - exact (@dispatches_disarm K).
  - reflexivity.
  - reflexivity.
  - reflexivity.
Defined.

(** The client accepts arming and then refuses the disarm: the entity keeps
    reporting the armed state. *)
Lemma command_data_frame_witness :
  let self := sample_device fickle_client in
  let w := @after_success "arm" arm_full fresh_world in
  let w' := after_call disarm w in
  (forall key, key <> "alarm" -> data w' !! key = data w !! key)
  /\ (@Raise unit (@could_not_change_alarm K) = Ok tt ->
      data w' !! "alarm" = Some (PyStr "disarm"))
  /\ (forall e,
        @Raise unit (@could_not_change_alarm K) = Raise e ->
        data w' = data w /\ @state K self w' = @state K self w).
Proof.
  apply (@command_data_frame K (sample_device fickle_client)
           (Disarm (Some "9999"))
           (@after_success "arm" arm_full fresh_world)
           (Raise (@could_not_change_alarm K))
           (after_call disarm (@after_success "arm" arm_full fresh_world))).
  reflexivity.
Defined.

Example refused_disarm_keeps_the_armed_state :
  let self := sample_device fickle_client in
  let (r1, w1) := @run_command K self (ArmAway None) fresh_world in
  let (r2, w2) := @run_command K self (Disarm (Some "9999")) w1 in
  r1 = Ok tt /\ r2 = Raise (@could_not_change_alarm K)
  /\ @state K self w2 = Ok (PyStr "armed_away")
  /\ data w2 !! "online" = Some (PyBool true).
Proof. by vm_compute. Qed.

Lemma command_log_discipline_witness :
  let w' := @after_success "home" arm_partial fresh_world in
  (@Ok unit tt = Raise invalid_code /\ log w' = log fresh_world)
  \/ (exists e,
         @Ok unit tt = Raise e /\ e <> invalid_code
         /\ log w' = (log fresh_world ++ [VendorCall arm_partial])%list)
  \/ (@Ok unit tt = Ok tt
      /\ log w' =
           (log fresh_world
              ++ [VendorCall arm_partial; WriteHaState (data w')])%list).
Proof.
  apply (@command_log_discipline K (sample_device obliging_client)
           (ArmHome None) fresh_world (Ok tt)
           (@after_success "home" arm_partial fresh_world)).
  - exact sample_keywords_distinct.
  - reflexivity.
Defined.

Lemma command_errors_are_classified_witness :
  @command_error K (sample_device refusing_client) (@could_not_change_alarm K)
  /\ (@could_not_change_alarm K = invalid_code ->
      exists code,
        Disarm (Some "9999") = Disarm code
        /\ code <> Some (_code (sample_device refusing_client))).
Proof.
  apply (@command_errors_are_classified K (sample_device refusing_client)
           (Disarm (Some "9999")) sample_world (@could_not_change_alarm K)
           (after_call disarm sample_world)).
  reflexivity.
Defined.

Lemma success_defines_the_properties_witness :
  let self := sample_device obliging_client in
  let w' := @after_success "home" arm_partial bare_world in
  @state K self w' = Ok (default PyNone (@STATE_MAP K !! "home"))
  /\ @available K self w' =
       Ok (negb (is_None (default PyNone (@STATE_MAP K !! "home")))
           && @super_available K (coordinator self) w')
  /\ (@STATE_MAP K !! "home" = None -> @available K self w' = Ok false).
Proof.
  apply (@success_defines_the_properties K (sample_device obliging_client)
           (ArmHome None) bare_world
           (@after_success "home" arm_partial bare_world)).
  reflexivity.
Defined.

(** Before the command the properties fail on the missing key; after it
    they answer. *)
Example success_repairs_a_missing_key :
  let self := sample_device obliging_client in
  let (r, w') := @run_command K self (ArmHome None) bare_world in
  @state K self bare_world = Raise (KeyError "alarm")
  /\ r = Ok tt
  /\ @state K self w' = Ok (PyStr "armed_home")
  /\ @available K self w' = Ok true.
Proof. by vm_compute. Qed.

Lemma last_command_wins_witness :
  let self := sample_device obliging_client in
  let w1 := @after_success "arm" arm_full sample_world in
  let w2 := @after_success "disarm" disarm w1 in
  data w2 = <["alarm" := PyStr "disarm"]> (data sample_world)
  /\ @state K self w2 = Ok (default PyNone (@STATE_MAP K !! "disarm"))
  /\ exists op1 op2,
       log w2 =
         (log sample_world ++ [VendorCall op1; WriteHaState (data w1);
                               VendorCall op2; WriteHaState (data w2)])%list.
Proof.
  apply (@last_command_wins K (sample_device obliging_client)
           (ArmAway None) (Disarm (Some "9999")) sample_world
           (@after_success "arm" arm_full sample_world)
           (@after_success "disarm" disarm
              (@after_success "arm" arm_full sample_world))).
  - reflexivity.
  - reflexivity.
Defined.

Example available_and_state_on_the_samples :
  @available K (sample_device obliging_client) sample_world = Ok true
  /\ @state K (sample_device obliging_client) sample_world
     = Ok (PyStr "disarmed")
  /\ @state K (sample_device obliging_client) odd_world = Ok PyNone
  /\ @available K (sample_device obliging_client) odd_world = Ok false.
Proof. by vm_compute. Qed.

Lemma setup_entity_disarms_with_entry_code_witness :
  let runtime_data := mkCoordinator sample_entry obliging_client in
  exists self,
    @async_setup_entry K _ runtime_data (fun entities => entities) = [self]
    /\ _attr_unique_id self = "entry-1"
    /\ @async_alarm_disarm K self
         (Some (default (@DEFAULT_CODE K)
                  (entry_data sample_entry !! @CONF_CODE K))) sample_world
       = (Ok tt, @after_success "disarm" disarm sample_world)
    /\ @state K self (@after_success "disarm" disarm sample_world)
       = Ok (default PyNone (@STATE_MAP K !! "disarm")).
Proof.
  apply (@setup_entity_disarms_with_entry_code K
           (mkCoordinator sample_entry obliging_client) (PyBool true)
           sample_world).
  - exact sample_keywords_distinct.
  - reflexivity.
  - reflexivity.
Defined.

(** The entity of an entry without a code is disarmed with the default. *)
Example setup_without_code_uses_the_default :
  @async_setup_entry K _ codeless_coordinator
    (fun entities => (fun self => _code self) <$> entities) = ["0000"]
  /\ @async_setup_entry K _ (mkCoordinator sample_entry obliging_client)
       (fun entities => (fun self => _code self) <$> entities) = ["9999"].
Proof. by vm_compute. Qed.

Lemma command_ignores_current_data_witness :
  (@run_command K (sample_device obliging_client) (Disarm (Some "9999"))
     sample_world).1
  = (@run_command K (sample_device obliging_client) (Disarm (Some "9999"))
       bare_world).1
  /\ vendor_calls (log (@run_command K (sample_device obliging_client)
                          (Disarm (Some "9999")) sample_world).2)
     = vendor_calls (log (@run_command K (sample_device obliging_client)
                            (Disarm (Some "9999")) bare_world).2).
Proof.
  apply (@command_ignores_current_data K (sample_device obliging_client)
           (Disarm (Some "9999")) sample_world bare_world).
  reflexivity.
Defined.

(** Disarming an alarm that already reports disarmed still calls the
    vendor. *)
Example disarm_when_disarmed_calls_the_vendor :
  log (@run_command K (sample_device obliging_client) (Disarm (Some "9999"))
         sample_world).2
  = [VendorCall disarm;
     WriteHaState (<["alarm" := PyStr "disarm"]> (data sample_world))].
Proof. by vm_compute. Qed.
End MoreSamples.
